(** * Folder handle of the resource-manager client

    A shallow embedding of [google/cloud/resource_manager/folder.py]:
    the [Folder] class, its merge routine, its path property and the
    methods that talk to the backend through the client's connection.

    Python objects are modelled as follows.
    - A field of a folder and a value of a JSON payload is [None] or a
      [str]: [option string].
    - A [dict] (request body, query parameters, JSON response) is a
      finite map from string keys to such values.
    - The folder object [self] is mutable and lives in the state that
      every method threads; a raised exception leaves the state as it
      was at the point of the raise (Python rolls nothing back).
    - A client is an object whose connection answers requests.  The
      answer of the backend to a request may depend on every request
      sent before it, so the backend is a function of the history. *)

From Stdlib Require Import Ascii String List.
From stdpp Require Import gmap strings list fin_maps.

Open Scope string_scope.
Open Scope list_scope.

(** ** Values, dictionaries and exceptions *)

Abbreviation value := (option string) (only parsing).
Abbreviation dict := (gmap string (option string)) (only parsing).

(** [d.get(k)]: the value under [k], or [None] when [k] is absent. *)
Definition dict_get (d : dict) (k : string) : value :=
  match d !! k with
  | Some v => v
  | None => None
  end.

(** The exceptions that the methods can see.  [NotFound] is an instance
    of the class imported from [google.cloud.exceptions] or of one of
    its subclasses; [KeyError] and [TypeError] are raised by the
    interpreter; [OtherError] stands for an instance of any other
    class. *)
Inductive exception : Type :=
| NotFound (message : string)
| KeyError (key : string)
| TypeError (message : string)
| OtherError (class_name message : string).

(** [isinstance(e, NotFound)], the test of an [except NotFound] clause. *)
Definition isinstance_NotFound (e : exception) : bool :=
  match e with
  | NotFound _ => true
  | _ => false
  end.

(** [str(v)] as used by the [%s] conversion. *)
Definition py_str (v : value) : string :=
  match v with
  | Some s => s
  | None => "None"
  end.

(** The message of the [TypeError] that ["/" + None] raises; the class
    name is quoted in it. *)
Definition concat_None_message : string :=
  "can only concatenate str (not " +:+ String "034"%char "NoneType"
    +:+ String "034"%char ") to str".

(** ** Clients, requests and the folder record *)

(** A client object, identified by its address. *)
Definition Client := nat.

(** The keyword arguments of [api_request]; an argument that is not
    passed is [None]. *)
Record Request : Type := mkRequest {
  req_method : string;
  req_path : string;
  req_data : option (gmap string (option string));
  req_query_params : option (gmap string (option string))
}.

(** One call of [client._connection_v2.api_request(...)]. *)
Definition Call : Type := Client * Request.

Record Folder : Type := mkFolder {
  _client : Client;
  name : option string;
  display_name : option string;
  status : option string;
  parent : option string
}.

(** [Folder.__init__] *)
Definition __init__ (client : Client) (name display_name parent : value) : Folder :=
  {| _client := client;
     name := name;
     display_name := display_name;
     status := None;
     parent := parent |}.

Definition set_name (v : value) (f : Folder) : Folder :=
  {| _client := _client f; name := v; display_name := display_name f;
     status := status f; parent := parent f |}.

Definition set_status (v : value) (f : Folder) : Folder :=
  {| _client := _client f; name := name f; display_name := display_name f;
     status := v; parent := parent f |}.

Definition set_parent (v : value) (f : Folder) : Folder :=
  {| _client := _client f; name := name f; display_name := display_name f;
     status := status f; parent := v |}.

(** [Folder.set_properties_from_api_repr]: the name is assigned from
    [resource.get("name")]; parent and status are assigned under an
    [in] test. *)
Definition set_properties_from_api_repr (resource : dict) (f : Folder) : Folder :=
  let f := set_name (dict_get resource "name") f in
  let f := match resource !! "parent" with
           | Some v => set_parent v f
           | None => f
           end in
  match resource !! "lifecycleState" with
  | Some v => set_status v f
  | None => f
  end.

(** [Folder.from_api_repr]: [resource["name"]] raises [KeyError] when
    the key is absent. *)
Definition from_api_repr (resource : dict) (client : Client) : exception + Folder :=
  match resource !! "name" with
  | None => inl (KeyError "name")
  | Some n => inr (set_properties_from_api_repr resource (__init__ client n None None))
  end.

(** [Folder.path]: ["/%s" % (self.name)] *)
Definition path (f : Folder) : string := "/" +:+ py_str (name f).

(** [Folder._require_client] *)
Definition _require_client (f : Folder) (client : option Client) : Client :=
  match client with
  | None => _client f
  | Some c => c
  end.

(** ** The state threaded by the methods

    [self] is the folder object the method was called on; [calls] is the
    log of every request sent so far, oldest first, each with the client
    whose connection carried it. *)
Record State : Type := mkState {
  self : Folder;
  calls : list Call
}.

(** A computation that returns an [A] or raises, and in both cases
    leaves a state behind. *)
Definition M (A : Type) : Type := State -> (exception + A) * State.

Definition ret {A : Type} (a : A) : M A :=
  fun st => (inr a, st).

Definition raise {A : Type} (e : exception) : M A :=
  fun st => (inl e, st).

Definition bind {A B : Type} (m : M A) (k : A -> M B) : M B :=
  fun st =>
    match m st with
    | (inr a, st') => k a st'
    | (inl e, st') => (inl e, st')
    end.

(** [try: body / except <catches>: handler / else: orelse] *)
Definition try_except_else {A B : Type} (body : M A) (catches : exception -> bool)
    (handler : M B) (orelse : A -> M B) : M B :=
  fun st =>
    match body st with
    | (inr a, st') => orelse a st'
    | (inl e, st') => if catches e then handler st' else (inl e, st')
    end.

Definition get_self : M Folder :=
  fun st => (inr (self st), st).

Definition modify_self (g : Folder -> Folder) : M unit :=
  fun st => (inr tt, {| self := g (self st); calls := calls st |}).

Declare Scope folder_scope.
Delimit Scope folder_scope with folder.
Notation "x <- m ;; k" := (bind m (fun x => k))
  (at level 100, m at next level, right associativity) : folder_scope.
Notation "m ;; k" := (bind m (fun _ => k))
  (at level 100, right associativity) : folder_scope.
Open Scope folder_scope.

Section Backend.

(** What the connection of a client answers to a request, given the
    requests sent before it: a JSON object, or an exception. *)
Variable backend : list Call -> Call -> exception + gmap string (option string).

(** [client._connection_v2.api_request(method=..., path=..., ...)] *)
Definition api_request (client : Client) (r : Request) : M dict :=
  fun st =>
    (backend (calls st) (client, r),
     {| self := self st; calls := calls st ++ [(client, r)] |}).

(** [Folder.create] *)
Definition create (client : option Client) : M dict :=
  f <- get_self ;;
  let client := _require_client f client in
  let data : dict := <["displayName" := display_name f]> (<["name" := name f]> ∅) in
  let query_params : dict := <["parent" := parent f]> ∅ in
  resp <- api_request client
            (mkRequest "POST" "/folders" (Some data) (Some query_params)) ;;
  modify_self (set_properties_from_api_repr resp) ;;
  ret resp.

(** [Folder.reload] *)
Definition reload (client : option Client) : M unit :=
  f <- get_self ;;
  let client := _require_client f client in
  resp <- api_request client (mkRequest "GET" (path f) None None) ;;
  modify_self (set_properties_from_api_repr resp).

(** [Folder.exists] *)
Definition exists_ (client : option Client) : M bool :=
  f <- get_self ;;
  let client := _require_client f client in
  try_except_else
    (api_request client (mkRequest "GET" (path f) None None))
    isinstance_NotFound
    (ret false)
    (fun _ => ret true).

(** [Folder.update] *)
Definition update (client : option Client) : M unit :=
  f <- get_self ;;
  let client := _require_client f client in
  let data : dict := <["parent" := parent f]> (<["display_name" := display_name f]> ∅) in
  resp <- api_request client (mkRequest "PUT" (path f) (Some data) None) ;;
  modify_self (set_properties_from_api_repr resp).

(** [Folder.delete]: the reload is called without a client. *)
Definition delete (client : option Client) (reload_data : bool) : M unit :=
  f <- get_self ;;
  let client := _require_client f client in
  api_request client (mkRequest "DELETE" (path f) None None) ;;
  if reload_data then reload None else ret tt.

(** [Folder.undelete]: the reload is called without a client. *)
Definition undelete (client : option Client) (reload_data : bool) : M unit :=
  f <- get_self ;;
  let client := _require_client f client in
  api_request client (mkRequest "POST" (path f +:+ ":undelete") None None) ;;
  if reload_data then reload None else ret tt.

(** [Folder.get_folder]: ["/" + name] raises [TypeError] for [None]. *)
Definition get_folder (client : option Client) (name : value) : M dict :=
  f <- get_self ;;
  let client := _require_client f client in
  match name with
  | None => raise (TypeError concat_None_message)
  | Some n =>
      resp <- api_request client (mkRequest "GET" ("/" +:+ n) None None) ;;
      modify_self (set_properties_from_api_repr resp) ;;
      ret resp
  end.

(** [Folder.get_iam_folder] *)
Definition get_iam_folder (client : option Client) (name : value) : M dict :=
  f <- get_self ;;
  let client := _require_client f client in
  match name with
  | None => raise (TypeError concat_None_message)
  | Some n =>
      resp <- api_request client
                (mkRequest "POST" ("/" +:+ n +:+ "/:getIamPolicy") None None) ;;
      modify_self (set_properties_from_api_repr resp) ;;
      ret resp
  end.

End Backend.

(** Calling a method on folder [f] with an empty request log. *)
Definition call_on {A : Type} (f : Folder) (m : M A) : (exception + A) * State :=
  m {| self := f; calls := [] |}.

(** ** Sample folders, payloads and backends *)

(** A folder bound to client 1 that carries an unsaved display name. *)
Definition folder_42 : Folder :=
  mkFolder 1 (Some "folders/42") (Some "local edit") (Some "ACTIVE")
           (Some "organizations/9").

(** The partial response [{"name": "folders/1"}]. *)
Definition name_only : gmap string (option string) :=
  <["name" := Some "folders/1"]> ∅.

(** A response without the key ["name"]. *)
Definition parent_only : gmap string (option string) :=
  <["parent" := Some "organizations/7"]> ∅.

(** A full representation of folder 42 as the server holds it. *)
Definition full_repr : gmap string (option string) :=
  <["lifecycleState" := Some "DELETE_REQUESTED"]>
    (<["parent" := Some "organizations/7"]>
       (<["displayName" := Some "server name"]>
          (<["name" := Some "folders/42"]> ∅))).

(** A backend that answers every request with [resp]. *)
Definition answers (resp : gmap string (option string))
    : list Call -> Call -> exception + gmap string (option string) :=
  fun _ _ => inr resp.

(** A backend that raises [e] on every request. *)
Definition fails (e : exception)
    : list Call -> Call -> exception + gmap string (option string) :=
  fun _ _ => inl e.

(** A backend that raises [e] on requests of method [m] and answers the
    others with [resp]. *)
Definition fails_on (m : string) (e : exception) (resp : gmap string (option string))
    : list Call -> Call -> exception + gmap string (option string) :=
  fun _ call => if String.eqb (req_method (snd call)) m then inl e else inr resp.

(** A folder that was constructed but not created yet: it has no id and
    no status. *)
Definition new_folder : Folder :=
  __init__ 1 None (Some "my folder") (Some "organizations/9").

(** The representation of a folder the server has just created. *)
Definition created_repr : gmap string (option string) :=
  <["lifecycleState" := Some "ACTIVE"]>
    (<["parent" := Some "organizations/7"]>
       (<["displayName" := Some "my folder"]>
          (<["name" := Some "folders/77"]> ∅))).


(** The full representation without its display name. *)
Definition full_repr_unnamed : gmap string (option string) :=
  base.delete "displayName" full_repr.

(** * Properties *)

(** ** The merge routine *)

Lemma set_properties_name (r : gmap string (option string)) (f : Folder) :
  name (set_properties_from_api_repr r f) = dict_get r "name".
Proof.
  unfold set_properties_from_api_repr.
  destruct (r !! "parent"), (r !! "lifecycleState"); reflexivity.
Qed.

Lemma set_properties_parent (r : gmap string (option string)) (f : Folder) :
  parent (set_properties_from_api_repr r f) =
    match r !! "parent" with Some v => v | None => parent f end.
Proof.
  unfold set_properties_from_api_repr.
  destruct (r !! "parent"), (r !! "lifecycleState"); reflexivity.
Qed.

Lemma set_properties_status (r : gmap string (option string)) (f : Folder) :
  status (set_properties_from_api_repr r f) =
    match r !! "lifecycleState" with Some v => v | None => status f end.
Proof.
  unfold set_properties_from_api_repr.
  destruct (r !! "parent"), (r !! "lifecycleState"); reflexivity.
Qed.

Lemma set_properties_display_name (r : gmap string (option string)) (f : Folder) :
  display_name (set_properties_from_api_repr r f) = display_name f.
Proof.
  unfold set_properties_from_api_repr.
  destruct (r !! "parent"), (r !! "lifecycleState"); reflexivity.
Qed.

Lemma set_properties_client (r : gmap string (option string)) (f : Folder) :
  _client (set_properties_from_api_repr r f) = _client f.
Proof.
  unfold set_properties_from_api_repr.
  destruct (r !! "parent"), (r !! "lifecycleState"); reflexivity.
Qed.

(** What the merge routine leaves in each field when the key is
    present: the value of the response; a missing ["parent"] or
    ["lifecycleState"] leaves the local value alone, and the display
    name and the bound client are never touched. *)
Lemma set_properties_fields (r : gmap string (option string)) (f : Folder) :
  let f' := set_properties_from_api_repr r f in
  (forall v, r !! "name" = Some v -> name f' = v) /\
  parent f' = match r !! "parent" with Some v => v | None => parent f end /\
  status f' = match r !! "lifecycleState" with Some v => v | None => status f end /\
  display_name f' = display_name f /\
  _client f' = _client f.
Proof.
  cbv zeta.
  rewrite set_properties_name, set_properties_parent, set_properties_status,
    set_properties_display_name, set_properties_client.
  split; [|repeat split].
  intros v Hv. unfold dict_get. rewrite Hv. reflexivity.
Qed.

(** C1: the merge routine on folder 42 and the response
    [{"parent": "organizations/7"}], which has no key ["name"]: the
    parent is copied, but the id, set to ["folders/42"] before, is not
    left untouched: it is [None] afterwards, and the path of the folder
    is ["/None"]. *)
Lemma merge_without_name_resets_id :
  parent_only !! "name" = None /\
  name folder_42 = Some "folders/42" /\
  name (set_properties_from_api_repr parent_only folder_42) = None /\
  parent (set_properties_from_api_repr parent_only folder_42) =
    Some "organizations/7" /\
  path (set_properties_from_api_repr parent_only folder_42) = "/None".
Proof. repeat split. Qed.

(** The merge routine, field by field, for every response; merging
    [{"name": "folders/1"}] changes the id and nothing else. *)
Theorem set_properties_from_api_repr_merge
    (r : gmap string (option string)) (f : Folder) :
  let f' := set_properties_from_api_repr r f in
  name f' = match r !! "name" with Some v => v | None => None end /\
  parent f' = match r !! "parent" with Some v => v | None => parent f end /\
  status f' = match r !! "lifecycleState" with Some v => v | None => status f end /\
  display_name f' = display_name f /\
  _client f' = _client f /\
  set_properties_from_api_repr name_only f = set_name (Some "folders/1") f.
Proof.
  cbv zeta.
  rewrite set_properties_name, set_properties_parent, set_properties_status,
    set_properties_display_name, set_properties_client.
  repeat split.
Qed.

(** ** The factory *)

(** C10: [from_api_repr] returns a folder exactly when the resource has
    the key ["name"]; the folder is then bound to the given client, its
    id is the value under ["name"], its parent and status are the values
    under ["parent"] and ["lifecycleState"] ([None] when absent) and it
    has no display name.  Without the key the call raises [KeyError]. *)
Theorem from_api_repr_iff_name (resource : gmap string (option string)) (client : Client) :
  ((exists f, from_api_repr resource client = inr f) <-> is_Some (resource !! "name")) /\
  (forall n, resource !! "name" = Some n ->
     from_api_repr resource client =
       inr (set_properties_from_api_repr resource (__init__ client n None None)) /\
     from_api_repr resource client =
       inr {| _client := client;
              name := n;
              display_name := None;
              status := dict_get resource "lifecycleState";
              parent := dict_get resource "parent" |}) /\
  (resource !! "name" = None -> from_api_repr resource client = inl (KeyError "name")).
Proof.
  unfold from_api_repr. split; [|split].
  - destruct (resource !! "name") as [n|] eqn:Hn; split.
    + intros _. by exists n.
    + intros _. eexists. reflexivity.
    + intros [f Hf]. discriminate Hf.
    + intros [n Hn']. discriminate Hn'.
  - intros n Hn. rewrite Hn. split; [reflexivity|].
    unfold set_properties_from_api_repr, dict_get. rewrite Hn.
    destruct (resource !! "parent"), (resource !! "lifecycleState"); reflexivity.
  - intros Hn. rewrite Hn. reflexivity.
Qed.

(** ** One run of each method

    Every method sends its first request on the client chosen by
    [_require_client] and appends it to the log; what happens next is
    decided by the answer of the backend. *)

Section Runs.

Variable backend : list Call -> Call -> exception + gmap string (option string).

Lemma api_request_run (client : Client) (r : Request) (st : State) :
  api_request backend client r st =
    (backend (calls st) (client, r),
     mkState (self st) (calls st ++ [(client, r)])).
Proof. reflexivity. Qed.

Lemma create_run (client : option Client) (st : State) :
  create backend client st =
    let f := self st in
    let c := _require_client f client in
    let data : dict := <["displayName" := display_name f]> (<["name" := name f]> ∅) in
    let query : dict := <["parent" := parent f]> ∅ in
    let post := mkRequest "POST" "/folders" (Some data) (Some query) in
    let log := calls st ++ [(c, post)] in
    match backend (calls st) (c, post) with
    | inr resp => (inr resp, mkState (set_properties_from_api_repr resp f) log)
    | inl e => (inl e, mkState f log)
    end.
Proof.
  unfold create, bind, get_self, api_request, modify_self, ret. cbn.
  destruct (backend _ _); reflexivity.
Qed.

Lemma reload_run (client : option Client) (st : State) :
  reload backend client st =
    let f := self st in
    let c := _require_client f client in
    let get := mkRequest "GET" (path f) None None in
    let log := calls st ++ [(c, get)] in
    match backend (calls st) (c, get) with
    | inr resp => (inr tt, mkState (set_properties_from_api_repr resp f) log)
    | inl e => (inl e, mkState f log)
    end.
Proof.
  unfold reload, bind, get_self, api_request, modify_self. cbn.
  destruct (backend _ _); reflexivity.
Qed.

Lemma exists_run (client : option Client) (st : State) :
  exists_ backend client st =
    let f := self st in
    let c := _require_client f client in
    let get := mkRequest "GET" (path f) None None in
    let log := calls st ++ [(c, get)] in
    match backend (calls st) (c, get) with
    | inr _ => (inr true, mkState f log)
    | inl e => (if isinstance_NotFound e then inr false else inl e, mkState f log)
    end.
Proof.
  unfold exists_, bind, get_self, try_except_else, api_request, ret. cbn.
  destruct (backend _ _) as [e|resp]; [destruct (isinstance_NotFound e)|]; reflexivity.
Qed.

Lemma update_run (client : option Client) (st : State) :
  update backend client st =
    let f := self st in
    let c := _require_client f client in
    let data : dict := <["parent" := parent f]> (<["display_name" := display_name f]> ∅) in
    let put := mkRequest "PUT" (path f) (Some data) None in
    let log := calls st ++ [(c, put)] in
    match backend (calls st) (c, put) with
    | inr resp => (inr tt, mkState (set_properties_from_api_repr resp f) log)
    | inl e => (inl e, mkState f log)
    end.
Proof.
  unfold update, bind, get_self, api_request, modify_self. cbn.
  destruct (backend _ _); reflexivity.
Qed.

Lemma delete_run (client : option Client) (reload_data : bool) (st : State) :
  delete backend client reload_data st =
    let f := self st in
    let c := _require_client f client in
    let del := mkRequest "DELETE" (path f) None None in
    let st1 := mkState f (calls st ++ [(c, del)]) in
    match backend (calls st) (c, del) with
    | inr _ => if reload_data then reload backend None st1 else (inr tt, st1)
    | inl e => (inl e, st1)
    end.
Proof.
  unfold delete, bind, get_self, api_request, ret. cbn.
  destruct (backend _ _); [reflexivity|]. destruct reload_data; reflexivity.
Qed.

Lemma undelete_run (client : option Client) (reload_data : bool) (st : State) :
  undelete backend client reload_data st =
    let f := self st in
    let c := _require_client f client in
    let und := mkRequest "POST" (path f +:+ ":undelete") None None in
    let st1 := mkState f (calls st ++ [(c, und)]) in
    match backend (calls st) (c, und) with
    | inr _ => if reload_data then reload backend None st1 else (inr tt, st1)
    | inl e => (inl e, st1)
    end.
Proof.
  unfold undelete, bind, get_self, api_request, ret. cbn.
  destruct (backend _ _); [reflexivity|]. destruct reload_data; reflexivity.
Qed.

(** No method ever assigns the display name or rebinds the client. *)
Lemma reload_display_name (client : option Client) (st : State) :
  display_name (self (snd (reload backend client st))) = display_name (self st).
Proof.
  rewrite reload_run. cbv zeta. destruct (backend _ _); cbn; [reflexivity|].
  apply set_properties_display_name.
Qed.

End Runs.

(** ** The methods *)

Section Methods.

Variable backend : list Call -> Call -> exception + gmap string (option string).

(** C4: [exists()] sends one GET to the path of the folder; it returns
    [False] exactly when that GET raises [NotFound], [True] exactly when
    the GET is answered, and raises every other exception of the GET
    unchanged.  The folder is not modified. *)
Theorem exists_false_iff_NotFound (client : option Client) (st : State) :
  let f := self st in
  let c := _require_client f client in
  let get := mkRequest "GET" (path f) None None in
  let answer := backend (calls st) (c, get) in
  let out := fst (exists_ backend client st) in
  (out = inr false <-> exists message, answer = inl (NotFound message)) /\
  (out = inr true <-> exists resp, answer = inr resp) /\
  (forall e, answer = inl e -> isinstance_NotFound e = false -> out = inl e) /\
  snd (exists_ backend client st) = mkState f (calls st ++ [(c, get)]).
Proof.
  cbv zeta. rewrite exists_run. cbv zeta.
  destruct (backend _ _) as [e|resp] eqn:Hb; cbn [fst snd].
  - split; [split|split; [split|split]].
    + intros H. destruct e; try discriminate H. eauto.
    + intros [message Hm]. injection Hm as ->. reflexivity.
    + destruct (isinstance_NotFound e); discriminate.
    + intros [resp Hr]. discriminate Hr.
    + intros e' He' Hn. injection He' as <-. rewrite Hn. reflexivity.
    + reflexivity.
  - split; [split|split; [split|split]].
    + discriminate.
    + intros [message Hm]. discriminate Hm.
    + eauto.
    + reflexivity.
    + intros e He. discriminate He.
    + reflexivity.
Qed.

(** C5: when the id of the folder is the string [id], its path is
    ["/" + id]; [reload], [update] and [delete] send their request to
    that path and [undelete] to that path followed by [":undelete"].
    A reload that follows a delete or an undelete uses the path too. *)
Theorem request_path_is_slash_id
    (client : option Client) (reload_data : bool) (st : State) (id : string) :
  name (self st) = Some id ->
  let c := _require_client (self st) client in
  let same_path := fun call : Call => req_path (snd call) = "/" +:+ id in
  path (self st) = "/" +:+ id /\
  calls (snd (reload backend client st)) =
    calls st ++ [(c, mkRequest "GET" ("/" +:+ id) None None)] /\
  (exists body,
     calls (snd (update backend client st)) =
       calls st ++ [(c, mkRequest "PUT" ("/" +:+ id) (Some body) None)]) /\
  (exists rest,
     calls (snd (delete backend client reload_data st)) =
       calls st ++ (c, mkRequest "DELETE" ("/" +:+ id) None None) :: rest /\
     Forall same_path rest) /\
  (exists rest,
     calls (snd (undelete backend client reload_data st)) =
       calls st ++ (c, mkRequest "POST" ("/" +:+ id +:+ ":undelete") None None) :: rest /\
     Forall same_path rest).
Proof.
  intros Hid. cbv zeta.
  assert (Hp : path (self st) = "/" +:+ id) by (unfold path; rewrite Hid; reflexivity).
  split; [exact Hp|]. split; [|split; [|split]].
  - rewrite reload_run. cbv zeta. rewrite Hp. destruct (backend _ _); reflexivity.
  - rewrite update_run. cbv zeta. rewrite Hp. eexists.
    destruct (backend _ _); reflexivity.
  - rewrite delete_run. cbv zeta. rewrite Hp.
    destruct (backend _ _) as [e|resp]; [exists []; split; [reflexivity|constructor]|].
    destruct reload_data; [|exists []; split; [reflexivity|constructor]].
    rewrite reload_run. cbv zeta. cbn [self calls]. rewrite Hp.
    eexists [_]. split.
    + destruct (backend _ _); cbn [snd calls]; rewrite <- app_assoc; reflexivity.
    + repeat constructor.
  - rewrite undelete_run. cbv zeta. rewrite Hp.
    destruct (backend _ _) as [e|resp]; [exists []; split; [reflexivity|constructor]|].
    destruct reload_data; [|exists []; split; [reflexivity|constructor]].
    rewrite reload_run. cbv zeta. cbn [self calls]. rewrite Hp.
    eexists [_]. split.
    + destruct (backend _ _); cbn [snd calls]; rewrite <- app_assoc; reflexivity.
    + repeat constructor.
Qed.

(** C6: [delete(reload_data=False)] sends the DELETE and nothing else,
    so no GET; when the DELETE is answered, [delete(reload_data=True)]
    sends the DELETE and then exactly one GET, in this order, whatever
    the GET is answered. *)
Theorem delete_then_optional_reload (client : option Client) (st : State) :
  let f := self st in
  let c := _require_client f client in
  let del := mkRequest "DELETE" (path f) None None in
  let get := mkRequest "GET" (path f) None None in
  calls (snd (delete backend client false st)) = calls st ++ [(c, del)] /\
  (forall resp, backend (calls st) (c, del) = inr resp ->
     calls (snd (delete backend client true st)) =
       calls st ++ [(c, del); (_client f, get)]).
Proof.
  cbv zeta. split.
  - rewrite delete_run. cbv zeta. destruct (backend _ _); reflexivity.
  - intros resp Hd. rewrite delete_run. cbv zeta. rewrite Hd.
    rewrite reload_run. cbv zeta. cbn [self calls _require_client].
    destruct (backend (calls st ++ _) _); cbn [snd calls];
      rewrite <- app_assoc; reflexivity.
Qed.

(** A DELETE that raises ends the call: the reload is not reached. *)
Lemma delete_raises_before_reload
    (client : option Client) (reload_data : bool) (st : State) (e : exception) :
  let f := self st in
  let c := _require_client f client in
  let del := mkRequest "DELETE" (path f) None None in
  backend (calls st) (c, del) = inl e ->
  delete backend client reload_data st = (inl e, mkState f (calls st ++ [(c, del)])).
Proof.
  cbv zeta. intros Hd. rewrite delete_run. cbv zeta. rewrite Hd. reflexivity.
Qed.

(** C7: [create()] sends exactly one request, a POST to ["/folders"]
    whose body has the keys ["name"] and ["displayName"], and no other,
    with the current id and display name, and whose query parameters
    hold the current parent under ["parent"]; when the POST is answered
    the response is returned and merged into the folder: the id takes
    the value under ["name"], the parent and the status take the values
    under ["parent"] and ["lifecycleState"] (a missing one of these two
    leaves the local value), the display name and the bound client stay;
    when the POST raises, the exception goes to the caller and the
    folder is as before. *)
Theorem create_posts_then_merges (client : option Client) (st : State) :
  let f := self st in
  let c := _require_client f client in
  let body : dict := <["displayName" := display_name f]> (<["name" := name f]> ∅) in
  let query : dict := <["parent" := parent f]> ∅ in
  let post := mkRequest "POST" "/folders" (Some body) (Some query) in
  let answer := backend (calls st) (c, post) in
  body !! "name" = Some (name f) /\
  body !! "displayName" = Some (display_name f) /\
  dom body = {["name"; "displayName"]} /\
  query !! "parent" = Some (parent f) /\
  dom query = {["parent"]} /\
  calls (snd (create backend client st)) = calls st ++ [(c, post)] /\
  (forall resp, answer = inr resp ->
     let f' := self (snd (create backend client st)) in
     fst (create backend client st) = inr resp /\
     f' = set_properties_from_api_repr resp f /\
     (forall v, resp !! "name" = Some v -> name f' = v) /\
     parent f' = match resp !! "parent" with Some v => v | None => parent f end /\
     status f' =
       match resp !! "lifecycleState" with Some v => v | None => status f end /\
     display_name f' = display_name f /\
     _client f' = _client f) /\
  (forall e, answer = inl e ->
     fst (create backend client st) = inl e /\
     self (snd (create backend client st)) = f).
Proof.
  cbv zeta. rewrite create_run. cbv zeta.
  split; [by rewrite lookup_insert_ne, lookup_insert_eq|].
  split; [by rewrite lookup_insert_eq|].
  split; [rewrite !dom_insert_L, dom_empty_L; set_solver|].
  split; [by rewrite lookup_insert_eq|].
  split; [rewrite dom_insert_L, dom_empty_L; set_solver|].
  destruct (backend _ _) as [e|resp]; cbn [fst snd self calls].
  - split; [reflexivity|]. split.
    + intros resp Hr. discriminate Hr.
    + intros e' He'. injection He' as <-. split; reflexivity.
  - split; [reflexivity|]. split.
    + intros resp' Hr. injection Hr as <-.
      split; [reflexivity|]. split; [reflexivity|].
      apply set_properties_fields.
    + intros e He. discriminate He.
Qed.

(** C8: when the request of [update()] or of [undelete()] raises, the
    same exception reaches the caller, and whenever one of the two
    methods raises (be it from its own request or from the reload that
    follows an undelete) the folder is exactly as it was before the
    call. *)
Theorem failed_request_leaves_folder
    (client : option Client) (reload_data : bool) (st : State) (e : exception) :
  let f := self st in
  let c := _require_client f client in
  let body : dict := <["parent" := parent f]> (<["display_name" := display_name f]> ∅) in
  let put := mkRequest "PUT" (path f) (Some body) None in
  let und := mkRequest "POST" (path f +:+ ":undelete") None None in
  (backend (calls st) (c, put) = inl e ->
     fst (update backend client st) = inl e) /\
  (backend (calls st) (c, und) = inl e ->
     fst (undelete backend client reload_data st) = inl e) /\
  (fst (update backend client st) = inl e ->
     self (snd (update backend client st)) = f) /\
  (fst (undelete backend client reload_data st) = inl e ->
     self (snd (undelete backend client reload_data st)) = f).
Proof.
  cbv zeta. rewrite update_run, undelete_run. cbv zeta.
  split; [|split; [|split]].
  - intros ->. reflexivity.
  - intros ->. reflexivity.
  - destruct (backend _ _); [reflexivity | discriminate].
  - destruct (backend _ _); [reflexivity|].
    destruct reload_data; [|discriminate].
    rewrite reload_run. cbv zeta. cbn [self calls].
    destruct (backend _ _); [reflexivity | discriminate].
Qed.

(** C9: with an override client [c] and [reload_data=True], [delete]
    sends its DELETE, and [undelete] its POST, on [c]; the GET of the
    reload that follows (it follows when the first request is answered)
    is sent on the client bound to the folder, not on [c]. *)
Theorem reload_after_override_uses_bound_client (c : Client) (st : State) :
  let f := self st in
  let del := mkRequest "DELETE" (path f) None None in
  let und := mkRequest "POST" (path f +:+ ":undelete") None None in
  let get := mkRequest "GET" (path f) None None in
  calls (snd (delete backend (Some c) true st)) =
    calls st ++ (c, del) ::
      match backend (calls st) (c, del) with
      | inr _ => [(_client f, get)]
      | inl _ => []
      end /\
  calls (snd (undelete backend (Some c) true st)) =
    calls st ++ (c, und) ::
      match backend (calls st) (c, und) with
      | inr _ => [(_client f, get)]
      | inl _ => []
      end.
Proof.
  cbv zeta. rewrite delete_run, undelete_run. cbv zeta.
  cbn [_require_client]. split.
  - destruct (backend (calls st) _); [reflexivity|].
    rewrite reload_run. cbv zeta. cbn [self calls _require_client].
    destruct (backend (calls st ++ _) _); cbn [snd calls];
      rewrite <- app_assoc; reflexivity.
  - destruct (backend (calls st) _); [reflexivity|].
    rewrite reload_run. cbv zeta. cbn [self calls _require_client].
    destruct (backend (calls st ++ _) _); cbn [snd calls];
      rewrite <- app_assoc; reflexivity.
Qed.

End Methods.

(** ** Runs on the sample folder *)

(** C2: the server answers the GET of [reload()] with a full
    representation whose display name is ["server name"]; the reload
    sends the GET to the path of the folder and overwrites the id, the
    parent and the status, but the display name of the folder is still
    the unsaved local edit. *)
Example reload_keeps_local_display_name :
  let run := call_on folder_42 (reload (answers full_repr) None) in
  fst run = inr tt /\
  calls (snd run) = [(1, mkRequest "GET" "/folders/42" None None)] /\
  name (self (snd run)) = Some "folders/42" /\
  parent (self (snd run)) = Some "organizations/7" /\
  status (self (snd run)) = Some "DELETE_REQUESTED" /\
  full_repr !! "displayName" = Some (Some "server name") /\
  display_name (self (snd run)) = Some "local edit".
Proof. cbv zeta. repeat split. Qed.

(** C3: [update()] sends exactly one PUT to the path of the folder, but
    the display name travels under the key ["display_name"]: the body
    has no key ["displayName"]. *)
Example update_body_has_no_displayName :
  let run := call_on folder_42 (update (answers full_repr) None) in
  exists body : gmap string (option string),
    calls (snd run) = [(1, mkRequest "PUT" "/folders/42" (Some body) None)] /\
    body !! "displayName" = None /\
    body !! "display_name" = Some (Some "local edit") /\
    body !! "parent" = Some (Some "organizations/9").
Proof. cbv zeta. eexists. repeat split. Qed.

(** An id that is a string is appended to the slash as it is; a folder
    without an id gets the path ["/None"]. *)
Example path_samples :
  path folder_42 = "/folders/42" /\
  path (__init__ 1 None None None) = "/None".
Proof. split; reflexivity. Qed.

(** [exists()] on the sample folder: gone, present, and forbidden. *)
Lemma exists_on_folder_42 :
  fst (call_on folder_42 (exists_ (fails (NotFound "gone")) None)) = inr false /\
  fst (call_on folder_42 (exists_ (answers full_repr) None)) = inr true /\
  fst (call_on folder_42 (exists_ (fails (OtherError "Forbidden" "denied")) None)) =
    inl (OtherError "Forbidden" "denied").
Proof.
  split; [|split].
  - pose proof (exists_false_iff_NotFound (fails (NotFound "gone")) None
                  (mkState folder_42 [])) as H.
    cbv zeta in H. destruct H as (H & _). apply H. exists "gone". reflexivity.
  - pose proof (exists_false_iff_NotFound (answers full_repr) None
                  (mkState folder_42 [])) as H.
    cbv zeta in H. destruct H as (_ & H & _). apply H. exists full_repr. reflexivity.
  - pose proof (exists_false_iff_NotFound (fails (OtherError "Forbidden" "denied")) None
                  (mkState folder_42 [])) as H.
    cbv zeta in H. destruct H as (_ & _ & H & _). apply H; reflexivity.
Defined.

(** The paths of the requests of the folder whose id is ["folders/42"]. *)
Lemma request_path_folders_42 :
  name folder_42 = Some "folders/42" /\
  path folder_42 = "/folders/42" /\
  calls (snd (call_on folder_42 (reload (answers full_repr) None))) =
    [(1, mkRequest "GET" "/folders/42" None None)] /\
  (exists body,
     calls (snd (call_on folder_42 (update (answers full_repr) None))) =
       [(1, mkRequest "PUT" "/folders/42" (Some body) None)]) /\
  (exists rest,
     calls (snd (call_on folder_42 (delete (answers full_repr) None true))) =
       (1, mkRequest "DELETE" "/folders/42" None None) :: rest /\
     Forall (fun call : Call => req_path (snd call) = "/folders/42") rest) /\
  (exists rest,
     calls (snd (call_on folder_42 (undelete (answers full_repr) None true))) =
       (1, mkRequest "POST" "/folders/42:undelete" None None) :: rest /\
     Forall (fun call : Call => req_path (snd call) = "/folders/42") rest).
Proof.
  split; [reflexivity|].
  exact (request_path_is_slash_id (answers full_repr) None true
           (mkState folder_42 []) "folders/42" eq_refl).
Defined.

(** [delete()] on the sample folder, without and with the reload. *)
Lemma delete_on_folder_42 :
  calls (snd (call_on folder_42 (delete (answers ∅) None false))) =
    [(1, mkRequest "DELETE" "/folders/42" None None)] /\
  calls (snd (call_on folder_42 (delete (answers ∅) None true))) =
    [(1, mkRequest "DELETE" "/folders/42" None None);
     (1, mkRequest "GET" "/folders/42" None None)].
Proof.
  pose proof (delete_then_optional_reload (answers ∅) None (mkState folder_42 [])) as H.
  cbv zeta in H. destruct H as (H1 & H2).
  split; [exact H1|]. exact (H2 ∅ eq_refl).
Defined.

(** [create()] on the folder that has no id yet: answered by the
    representation of the created folder, and refused. *)
Lemma create_on_new_folder :
  fst (call_on new_folder (create (answers created_repr) None)) = inr created_repr /\
  self (snd (call_on new_folder (create (answers created_repr) None))) =
    {| _client := 1;
       name := Some "folders/77";
       display_name := Some "my folder";
       status := Some "ACTIVE";
       parent := Some "organizations/7" |} /\
  name (self (snd (call_on new_folder (create (answers created_repr) None)))) =
    Some "folders/77" /\
  fst (call_on new_folder (create (fails (OtherError "Forbidden" "denied")) None)) =
    inl (OtherError "Forbidden" "denied") /\
  self (snd (call_on new_folder (create (fails (OtherError "Forbidden" "denied")) None))) =
    {| _client := 1;
       name := None;
       display_name := Some "my folder";
       status := None;
       parent := Some "organizations/9" |}.
Proof.
  pose proof (create_posts_then_merges (answers created_repr) None
                (mkState new_folder [])) as H.
  cbv zeta in H. destruct H as (_ & _ & _ & _ & _ & _ & H & _).
  destruct (H created_repr eq_refl) as (H1 & H2 & H3 & _).
  pose proof (create_posts_then_merges (fails (OtherError "Forbidden" "denied")) None
                (mkState new_folder [])) as H'.
  cbv zeta in H'. destruct H' as (_ & _ & _ & _ & _ & _ & _ & H').
  destruct (H' _ eq_refl) as (H4 & H5).
  split; [exact H1|]. split; [exact H2|]. split; [exact (H3 _ eq_refl)|].
  split; [exact H4|exact H5].
Defined.

(** A refused [update()] and a refused [undelete()] on the sample
    folder. *)
Lemma refused_on_folder_42 :
  fst (call_on folder_42 (update (fails (OtherError "Forbidden" "denied")) None)) =
    inl (OtherError "Forbidden" "denied") /\
  self (snd (call_on folder_42 (update (fails (OtherError "Forbidden" "denied")) None))) =
    folder_42 /\
  fst (call_on folder_42 (undelete (fails (OtherError "Forbidden" "denied")) None true)) =
    inl (OtherError "Forbidden" "denied") /\
  self (snd (call_on folder_42 (undelete (fails (OtherError "Forbidden" "denied")) None true))) =
    folder_42.
Proof.
  pose proof (failed_request_leaves_folder (fails (OtherError "Forbidden" "denied")) None true
                (mkState folder_42 []) (OtherError "Forbidden" "denied")) as H.
  cbv zeta in H. destruct H as (H1 & H2 & H3 & H4).
  split; [exact (H1 eq_refl)|]. split; [exact (H3 (H1 eq_refl))|].
  split; [exact (H2 eq_refl)|exact (H4 (H2 eq_refl))].
Defined.

(** The factory on a resource with and without a name. *)
Lemma from_api_repr_on_samples :
  from_api_repr full_repr 1 =
    inr (mkFolder 1 (Some "folders/42") None (Some "DELETE_REQUESTED")
                  (Some "organizations/7")) /\
  from_api_repr parent_only 1 = inl (KeyError "name").
Proof.
  destruct (from_api_repr_iff_name full_repr 1) as (_ & H & _).
  destruct (from_api_repr_iff_name parent_only 1) as (_ & _ & H').
  split; [exact (proj2 (H (Some "folders/42") eq_refl))|exact (H' eq_refl)].
Defined.

(** A refused DELETE on the sample folder: the exception reaches the
    caller and the reload that was asked for is not sent. *)
Example delete_refused_on_folder_42 :
  call_on folder_42
    (delete (fails_on "DELETE" (OtherError "Forbidden" "denied") ∅) None true) =
  (inl (OtherError "Forbidden" "denied"),
   mkState folder_42 [(1, mkRequest "DELETE" "/folders/42" None None)]).
Proof. reflexivity. Qed.

(** * Further properties *)

(** ** The merge routine and the factory *)

Lemma set_properties_twice (r : gmap string (option string)) (f : Folder) :
  set_properties_from_api_repr r (set_properties_from_api_repr r f) =
    set_properties_from_api_repr r f.
Proof.
  unfold set_properties_from_api_repr.
  destruct (r !! "parent"), (r !! "lifecycleState"); reflexivity.
Qed.

(** X1: merging a response a second time changes nothing. *)
Theorem merge_idempotent (r : gmap string (option string)) (f : Folder) :
  set_properties_from_api_repr r (set_properties_from_api_repr r f) =
    set_properties_from_api_repr r f.
Proof. apply set_properties_twice. Qed.

(** X2: the merge routine reads three keys only: two responses that
    give the same [get("name")] and agree on ["parent"] and
    ["lifecycleState"] have the same effect on every folder, whatever
    else they hold (a display name, say). *)
Theorem merge_reads_three_keys (r1 r2 : gmap string (option string)) (f : Folder) :
  dict_get r1 "name" = dict_get r2 "name" ->
  r1 !! "parent" = r2 !! "parent" ->
  r1 !! "lifecycleState" = r2 !! "lifecycleState" ->
  set_properties_from_api_repr r1 f = set_properties_from_api_repr r2 f.
Proof.
  intros Hn Hp Hs. unfold set_properties_from_api_repr.
  rewrite Hn, Hp, Hs. reflexivity.
Qed.

Lemma merge_reads_three_keys_on_samples :
  set_properties_from_api_repr full_repr folder_42 =
    set_properties_from_api_repr full_repr_unnamed folder_42.
Proof.
  apply (merge_reads_three_keys full_repr full_repr_unnamed folder_42); reflexivity.
Defined.

(** X3: a response that has both ["parent"] and ["lifecycleState"]
    wipes out what an earlier merge wrote: merging it after any other
    response is the same as merging it alone. *)
Theorem merge_full_overrides (r1 r2 : gmap string (option string)) (f : Folder) :
  is_Some (r2 !! "parent") ->
  is_Some (r2 !! "lifecycleState") ->
  set_properties_from_api_repr r2 (set_properties_from_api_repr r1 f) =
    set_properties_from_api_repr r2 f.
Proof.
  intros [p Hp] [s Hs]. unfold set_properties_from_api_repr.
  rewrite Hp, Hs.
  destruct (r1 !! "parent"), (r1 !! "lifecycleState"); reflexivity.
Qed.

Lemma merge_full_overrides_on_samples :
  set_properties_from_api_repr full_repr
    (set_properties_from_api_repr parent_only folder_42) =
  set_properties_from_api_repr full_repr folder_42.
Proof.
  apply (merge_full_overrides parent_only full_repr folder_42);
    eexists; reflexivity.
Defined.

(** X4: folders whose ids are strings have the same path only when they
    have the same id. *)
Theorem path_injective_on_ids (f1 f2 : Folder) (a b : string) :
  name f1 = Some a -> name f2 = Some b -> path f1 = path f2 -> a = b.
Proof.
  unfold path. intros -> ->. cbn. intros H. injection H as H. exact H.
Qed.

Lemma path_injective_on_samples :
  name folder_42 = Some "folders/42" /\
  name (set_parent None folder_42) = Some "folders/42" /\
  "folders/42" = "folders/42".
Proof.
  split; [reflexivity|]. split; [reflexivity|].
  apply (path_injective_on_ids folder_42 (set_parent None folder_42));
    reflexivity.
Defined.

(** A folder without an id and a folder whose id is the string ["None"]
    share the path ["/None"]. *)
Example path_of_missing_id_collides :
  path (__init__ 1 None None None) = path (__init__ 1 (Some "None") None None).
Proof. reflexivity. Qed.

(** X5: a folder built by the factory already carries everything the
    merge routine takes from the resource: merging the same resource
    again gives the same folder. *)
Theorem from_api_repr_then_merge
    (resource : gmap string (option string)) (client : Client) (f : Folder) :
  from_api_repr resource client = inr f ->
  set_properties_from_api_repr resource f = f.
Proof.
  unfold from_api_repr. destruct (resource !! "name"); [|discriminate].
  intros H. injection H as <-. apply set_properties_twice.
Qed.

Lemma from_api_repr_then_merge_on_samples :
  set_properties_from_api_repr full_repr
    (mkFolder 1 (Some "folders/42") None (Some "DELETE_REQUESTED")
              (Some "organizations/7")) =
  mkFolder 1 (Some "folders/42") None (Some "DELETE_REQUESTED")
           (Some "organizations/7").
Proof.
  apply (from_api_repr_then_merge full_repr 1). reflexivity.
Defined.

(** ** The methods, further *)

Section MoreMethods.

Variable backend : list Call -> Call -> exception + gmap string (option string).

Lemma get_folder_run (client : option Client) (n : string) (st : State) :
  get_folder backend client (Some n) st =
    let f := self st in
    let c := _require_client f client in
    let get := mkRequest "GET" ("/" +:+ n) None None in
    let log := calls st ++ [(c, get)] in
    match backend (calls st) (c, get) with
    | inr resp => (inr resp, mkState (set_properties_from_api_repr resp f) log)
    | inl e => (inl e, mkState f log)
    end.
Proof.
  unfold get_folder, bind, get_self, api_request, modify_self, ret. cbn.
  destruct (backend _ _); reflexivity.
Qed.

Lemma get_iam_folder_run (client : option Client) (n : string) (st : State) :
  get_iam_folder backend client (Some n) st =
    let f := self st in
    let c := _require_client f client in
    let post := mkRequest "POST" ("/" +:+ n +:+ "/:getIamPolicy") None None in
    let log := calls st ++ [(c, post)] in
    match backend (calls st) (c, post) with
    | inr resp => (inr resp, mkState (set_properties_from_api_repr resp f) log)
    | inl e => (inl e, mkState f log)
    end.
Proof.
  unfold get_iam_folder, bind, get_self, api_request, modify_self, ret. cbn.
  destruct (backend _ _); reflexivity.
Qed.

(** X6: [reload()] and [exists()] send the same request; [reload()]
    raises whatever the GET raises, [NotFound] included, and then
    leaves the folder as it was; [exists()] returns [True] exactly when
    [reload()] would return, and [False] exactly when [reload()] would
    raise [NotFound]. *)
Theorem reload_raises_what_exists_hides (client : option Client) (st : State) :
  let f := self st in
  let c := _require_client f client in
  let get := mkRequest "GET" (path f) None None in
  calls (snd (reload backend client st)) = calls (snd (exists_ backend client st)) /\
  (forall e, backend (calls st) (c, get) = inl e ->
     reload backend client st = (inl e, mkState f (calls st ++ [(c, get)]))) /\
  (fst (exists_ backend client st) = inr true <->
     fst (reload backend client st) = inr tt) /\
  (fst (exists_ backend client st) = inr false <->
     exists message, fst (reload backend client st) = inl (NotFound message)).
Proof.
  cbv zeta. rewrite reload_run, exists_run. cbv zeta.
  destruct (backend _ _) as [e|resp]; cbn [fst snd calls].
  - split; [reflexivity|]. split; [|split; split].
    + intros e' He'. injection He' as <-. reflexivity.
    + destruct (isinstance_NotFound e); discriminate.
    + discriminate.
    + intros H. destruct e; try discriminate H. eauto.
    + intros [message Hm]. injection Hm as ->. reflexivity.
  - split; [reflexivity|]. split; [|split; split].
    + intros e He. discriminate He.
    + reflexivity.
    + reflexivity.
    + discriminate.
    + intros [message Hm]. discriminate Hm.
Qed.

(** X7: without the reload, [delete()] and [undelete()] never touch the
    folder: whatever the backend answers, every field (the status too)
    is as before the call, and the call returns exactly when its
    request is answered. *)
Theorem delete_without_reload_keeps_folder (client : option Client) (st : State) :
  let f := self st in
  let c := _require_client f client in
  let del := mkRequest "DELETE" (path f) None None in
  let und := mkRequest "POST" (path f +:+ ":undelete") None None in
  self (snd (delete backend client false st)) = f /\
  self (snd (undelete backend client false st)) = f /\
  (fst (delete backend client false st) = inr tt <->
     exists resp, backend (calls st) (c, del) = inr resp) /\
  (fst (undelete backend client false st) = inr tt <->
     exists resp, backend (calls st) (c, und) = inr resp).
Proof.
  cbv zeta. rewrite delete_run, undelete_run. cbv zeta.
  split; [|split; [|split]].
  - destruct (backend _ _); reflexivity.
  - destruct (backend _ _); reflexivity.
  - destruct (backend _ _) as [e|resp]; cbn [fst]; split;
      try discriminate; eauto. intros [resp Hr]. discriminate Hr.
  - destruct (backend _ _) as [e|resp]; cbn [fst]; split;
      try discriminate; eauto. intros [resp Hr]. discriminate Hr.
Qed.

(** X8: [delete(reload_data=True)] is [delete()] followed by
    [reload()] on the bound client, and likewise for [undelete]: same
    result, same folder, same requests. *)
Theorem delete_with_reload_is_delete_then_reload (client : option Client) (st : State) :
  delete backend client true st =
    (delete backend client false ;; reload backend None) st /\
  undelete backend client true st =
    (undelete backend client false ;; reload backend None) st.
Proof.
  split; unfold bind.
  - rewrite !delete_run. cbv zeta. destruct (backend _ _); reflexivity.
  - rewrite !undelete_run. cbv zeta. destruct (backend _ _); reflexivity.
Qed.

(** X9: [get_folder(name=n)] sends exactly one request, a GET to
    ["/" + n] without body or query, whatever the id of the folder it
    is called on; when the GET is answered the response is returned
    and the folder it was called on takes the fetched values: its id
    the value under ["name"], its parent and status the values under
    ["parent"] and ["lifecycleState"] (a missing one of these two
    leaves the local value), while the display name and the bound
    client stay; when the GET raises, the exception goes to the caller
    and the folder is as before. *)
Theorem get_folder_fetches_named (client : option Client) (n : string) (st : State) :
  let f := self st in
  let c := _require_client f client in
  let get := mkRequest "GET" ("/" +:+ n) None None in
  let answer := backend (calls st) (c, get) in
  calls (snd (get_folder backend client (Some n) st)) = calls st ++ [(c, get)] /\
  (forall resp, answer = inr resp ->
     let f' := self (snd (get_folder backend client (Some n) st)) in
     fst (get_folder backend client (Some n) st) = inr resp /\
     f' = set_properties_from_api_repr resp f /\
     (forall v, resp !! "name" = Some v -> name f' = v) /\
     parent f' = match resp !! "parent" with Some v => v | None => parent f end /\
     status f' =
       match resp !! "lifecycleState" with Some v => v | None => status f end /\
     display_name f' = display_name f /\
     _client f' = _client f) /\
  (forall e, answer = inl e ->
     fst (get_folder backend client (Some n) st) = inl e /\
     self (snd (get_folder backend client (Some n) st)) = f).
Proof.
  cbv zeta. rewrite get_folder_run. cbv zeta.
  destruct (backend _ _) as [e|resp]; cbn [fst snd self calls].
  - split; [reflexivity|]. split.
    + intros resp Hr. discriminate Hr.
    + intros e' He'. injection He' as <-. split; reflexivity.
  - split; [reflexivity|]. split.
    + intros resp' Hr. injection Hr as <-.
      split; [reflexivity|]. split; [reflexivity|].
      apply set_properties_fields.
    + intros e He. discriminate He.
Qed.

(** Called without a name (the default), [get_folder] and
    [get_iam_folder] raise [TypeError] while building the path: no
    request is sent and the folder is not modified. *)
Lemma get_folder_without_name_raises (client : option Client) (st : State) :
  get_folder backend client None st = (inl (TypeError concat_None_message), st) /\
  get_iam_folder backend client None st = (inl (TypeError concat_None_message), st).
Proof. split; reflexivity. Qed.

(** X10: asked for the id of the folder it is called on,
    [get_folder] does what [reload()] does: the same request, the same
    folder afterwards, and it raises exactly when [reload()] raises. *)
Theorem get_folder_of_own_id_is_reload (client : option Client) (n : string) (st : State) :
  name (self st) = Some n ->
  snd (get_folder backend client (Some n) st) = snd (reload backend client st) /\
  fst (reload backend client st) =
    match fst (get_folder backend client (Some n) st) with
    | inr _ => inr tt
    | inl e => inl e
    end.
Proof.
  intros Hn. rewrite get_folder_run, reload_run. cbv zeta.
  unfold path. rewrite Hn. cbn [py_str].
  destruct (backend _ _); split; reflexivity.
Qed.


(** X12: a [reload()] right after a [create()] that was answered by
    [resp] sends its GET to the id the server assigned,
    ["/" + str(resp.get("name"))], on the bound client; when the
    server answers that GET with [resp] again the reload returns and
    leaves the folder as [create()] left it. *)
Theorem reload_after_create (client : option Client) (st : State)
    (resp : gmap string (option string)) :
  let f := self st in
  let c := _require_client f client in
  let body : dict := <["displayName" := display_name f]> (<["name" := name f]> ∅) in
  let query : dict := <["parent" := parent f]> ∅ in
  let post := mkRequest "POST" "/folders" (Some body) (Some query) in
  let get := mkRequest "GET" ("/" +:+ py_str (dict_get resp "name")) None None in
  let st1 := snd (create backend client st) in
  backend (calls st) (c, post) = inr resp ->
  calls (snd (reload backend None st1)) =
    calls st ++ [(c, post); (_client f, get)] /\
  (backend (calls st ++ [(c, post)]) (_client f, get) = inr resp ->
     fst (reload backend None st1) = inr tt /\
     self (snd (reload backend None st1)) = self st1).
Proof.
  cbv zeta. intros Hp. rewrite create_run. cbv zeta. rewrite Hp.
  cbn [snd]. rewrite reload_run. cbv zeta. cbn [self calls _require_client].
  unfold path. rewrite set_properties_name, set_properties_client.
  split.
  - destruct (backend (calls st ++ _) _); cbn [snd calls];
      rewrite <- app_assoc; reflexivity.
  - intros Hg. rewrite Hg. cbn [fst snd self]. split; [reflexivity|].
    apply set_properties_twice.
Qed.

(** X13: an override client carries the whole call of every method
    that does not reload: with [client=c], [create], [reload],
    [exists], [update], [get_folder] and [get_iam_folder] send their
    one request on [c], and [delete] and [undelete] without the reload
    too; nothing goes to the bound client. *)
Theorem override_client_carries_request (c : Client) (n : string) (st : State) :
  let on_c := fun m : State -> State =>
    exists r : Request, calls (m st) = calls st ++ [(c, r)] in
  on_c (fun st => snd (create backend (Some c) st)) /\
  on_c (fun st => snd (reload backend (Some c) st)) /\
  on_c (fun st => snd (exists_ backend (Some c) st)) /\
  on_c (fun st => snd (update backend (Some c) st)) /\
  on_c (fun st => snd (delete backend (Some c) false st)) /\
  on_c (fun st => snd (undelete backend (Some c) false st)) /\
  on_c (fun st => snd (get_folder backend (Some c) (Some n) st)) /\
  on_c (fun st => snd (get_iam_folder backend (Some c) (Some n) st)).
Proof.
  cbv zeta beta.
  rewrite create_run, reload_run, exists_run, update_run, delete_run,
    undelete_run, get_folder_run, get_iam_folder_run.
  cbv zeta. cbn [_require_client].
  repeat split; eexists; destruct (backend _ _); reflexivity.
Qed.

(** X14: the body of the PUT of [update()] has exactly the keys
    ["display_name"] and ["parent"], with the current local values;
    the id of the folder travels in the path only, and the request has
    no query parameters. *)
Theorem update_body_keys (client : option Client) (st : State) :
  let f := self st in
  let c := _require_client f client in
  exists body : gmap string (option string),
    calls (snd (update backend client st)) =
      calls st ++ [(c, mkRequest "PUT" (path f) (Some body) None)] /\
    dom body = {["display_name"; "parent"]} /\
    body !! "display_name" = Some (display_name f) /\
    body !! "parent" = Some (parent f).
Proof.
  cbv zeta. rewrite update_run. cbv zeta. eexists. split; [|split; [|split]].
  - destruct (backend _ _); reflexivity.
  - rewrite !dom_insert_L, dom_empty_L. set_solver.
  - by rewrite lookup_insert_ne, lookup_insert_eq.
  - by rewrite lookup_insert_eq.
Qed.

End MoreMethods.

(** ** Further runs on the sample folder *)

(** A reload of a folder that is gone raises what [exists()] turns into
    [False]. *)
Lemma reload_of_missing_folder_42 :
  reload (fails (NotFound "gone")) None (mkState folder_42 []) =
    (inl (NotFound "gone"),
     mkState folder_42 [(1, mkRequest "GET" "/folders/42" None None)]) /\
  fst (exists_ (fails (NotFound "gone")) None (mkState folder_42 [])) = inr false.
Proof.
  pose proof (reload_raises_what_exists_hides (fails (NotFound "gone")) None
                (mkState folder_42 [])) as H.
  cbv zeta in H. destruct H as (_ & H1 & _ & H2).
  split; [exact (H1 _ eq_refl)|].
  apply H2. exists "gone". reflexivity.
Defined.

(** [get_folder] called on the folder without id for folder 42:
    answered by the full representation, and refused. *)
Lemma get_folder_on_new_folder :
  fst (call_on new_folder (get_folder (answers full_repr) None (Some "folders/42"))) =
    inr full_repr /\
  self (snd (call_on new_folder
               (get_folder (answers full_repr) None (Some "folders/42")))) =
    {| _client := 1;
       name := Some "folders/42";
       display_name := Some "my folder";
       status := Some "DELETE_REQUESTED";
       parent := Some "organizations/7" |} /\
  name (self (snd (call_on new_folder
                     (get_folder (answers full_repr) None (Some "folders/42"))))) =
    Some "folders/42" /\
  fst (call_on new_folder
         (get_folder (fails (NotFound "gone")) None (Some "folders/42"))) =
    inl (NotFound "gone") /\
  self (snd (call_on new_folder
               (get_folder (fails (NotFound "gone")) None (Some "folders/42")))) =
    {| _client := 1;
       name := None;
       display_name := Some "my folder";
       status := None;
       parent := Some "organizations/9" |}.
Proof.
  pose proof (get_folder_fetches_named (answers full_repr) None "folders/42"
                (mkState new_folder [])) as H.
  cbv zeta in H. destruct H as (_ & H & _).
  destruct (H full_repr eq_refl) as (H1 & H2 & H3 & _).
  pose proof (get_folder_fetches_named (fails (NotFound "gone")) None "folders/42"
                (mkState new_folder [])) as H'.
  cbv zeta in H'. destruct H' as (_ & _ & H').
  destruct (H' _ eq_refl) as (H4 & H5).
  split; [exact H1|]. split; [exact H2|]. split; [exact (H3 _ eq_refl)|].
  split; [exact H4|exact H5].
Defined.

(** [get_folder] called on folder 42 for its own id. *)
Lemma get_folder_of_own_id_on_folder_42 :
  name folder_42 = Some "folders/42" /\
  snd (call_on folder_42 (get_folder (answers full_repr) None (Some "folders/42"))) =
    snd (call_on folder_42 (reload (answers full_repr) None)) /\
  fst (call_on folder_42 (reload (answers full_repr) None)) = inr tt.
Proof.
  split; [reflexivity|].
  exact (get_folder_of_own_id_is_reload (answers full_repr) None "folders/42"
           (mkState folder_42 []) eq_refl).
Defined.


(** [create()] then [reload()] on the sample folder, both answered by
    the full representation. *)
Lemma reload_after_create_on_folder_42 :
  (exists post : Request,
     calls (snd (reload (answers full_repr) None
                   (snd (call_on folder_42 (create (answers full_repr) None))))) =
       [(1, post); (1, mkRequest "GET" "/folders/42" None None)]) /\
  self (snd (reload (answers full_repr) None
               (snd (call_on folder_42 (create (answers full_repr) None))))) =
    self (snd (call_on folder_42 (create (answers full_repr) None))).
Proof.
  pose proof (reload_after_create (answers full_repr) None (mkState folder_42 [])
                full_repr eq_refl) as H.
  cbv zeta in H. destruct H as (H1 & H2).
  split; [eexists; exact H1|]. exact (proj2 (H2 eq_refl)).
Defined.

(** ** What no method does *)

Lemma merge_keeps_display_name_and_client
    (r : gmap string (option string)) (f : Folder) :
  display_name (set_properties_from_api_repr r f) = display_name f /\
  _client (set_properties_from_api_repr r f) = _client f.
Proof.
  split; [apply set_properties_display_name | apply set_properties_client].
Qed.

(** X15: no method call, answered or refused, with or without an
    override client or a reload, changes the display name of the folder
    or the client it is bound to: a display name is only ever set by
    the caller. *)
Theorem methods_keep_display_name_and_client
    (backend : list Call -> Call -> exception + gmap string (option string))
    (client : option Client) (reload_data : bool) (n : option string) (st : State) :
  let keeps := fun st' : State =>
    display_name (self st') = display_name (self st) /\
    _client (self st') = _client (self st) in
  keeps (snd (create backend client st)) /\
  keeps (snd (reload backend client st)) /\
  keeps (snd (exists_ backend client st)) /\
  keeps (snd (update backend client st)) /\
  keeps (snd (delete backend client reload_data st)) /\
  keeps (snd (undelete backend client reload_data st)) /\
  keeps (snd (get_folder backend client n st)) /\
  keeps (snd (get_iam_folder backend client n st)).
Proof.
  cbv zeta beta.
  assert (Hreload : forall c st0,
            display_name (self (snd (reload backend c st0))) = display_name (self st0) /\
            _client (self (snd (reload backend c st0))) = _client (self st0)).
  { intros c st0. rewrite reload_run. cbv zeta.
    destruct (backend _ _); cbn [snd self];
      [split; reflexivity | apply merge_keeps_display_name_and_client]. }
  split; [|split; [|split; [|split; [|split; [|split; [|split]]]]]].
  - rewrite create_run. cbv zeta.
    destruct (backend _ _); cbn [snd self];
      [split; reflexivity | apply merge_keeps_display_name_and_client].
  - apply Hreload.
  - rewrite exists_run. cbv zeta. destruct (backend _ _); split; reflexivity.
  - rewrite update_run. cbv zeta.
    destruct (backend _ _); cbn [snd self];
      [split; reflexivity | apply merge_keeps_display_name_and_client].
  - rewrite delete_run. cbv zeta.
    destruct (backend _ _); [split; reflexivity|].
    destruct reload_data;
      [exact (Hreload None (mkState (self st) _)) | split; reflexivity].
  - rewrite undelete_run. cbv zeta.
    destruct (backend _ _); [split; reflexivity|].
    destruct reload_data;
      [exact (Hreload None (mkState (self st) _)) | split; reflexivity].
  - destruct n as [n|]; [|split; reflexivity].
    rewrite get_folder_run. cbv zeta.
    destruct (backend _ _); cbn [snd self];
      [split; reflexivity | apply merge_keeps_display_name_and_client].
  - destruct n as [n|]; [|split; reflexivity].
    rewrite get_iam_folder_run. cbv zeta.
    destruct (backend _ _); cbn [snd self];
      [split; reflexivity | apply merge_keeps_display_name_and_client].
Qed.
